(** * The TikTok driver of AdonisJS Ally (src/driver.ts)

    A shallow embedding of [TikTokDriver]: the two request customisations
    ([configureRedirectRequest], [configureAccessTokenRequest]), the
    access-denied predicate and the profile fetch ([getUserInfo], [user],
    [userFromToken]).

    The OAuth2 engine the class extends and the HTTP client it talks to are
    outside the driver.  The redirect builder is the list of the parameters
    written to it, in order ([param] adds a pair, [clearParam] removes the
    pairs of a key), read through its key/value view; the headers,
    parameters and fields of an API request are key/value stores ([header],
    [param], [field] assign a key).  The token exchange and the HTTP
    transport are oracles of the surrounding world. *)

From Stdlib Require Import String List.
From stdpp Require Import gmap strings list fin_maps.

Local Open Scope string_scope.
Set Warnings "-register-all,-clear-no-such-hyp".

(** ** JavaScript values *)

(** What a parsed JSON body or a request input can hold.  The driver never
    inspects a number, so integers stand for them. *)
Inductive value : Type :=
  | VUndefined
  | VNull
  | VBool (b : bool)
  | VNum (n : Z)
  | VStr (s : string)
  | VArr (l : list value)
  | VObj (o : gmap string value).

(** [undefined] and [null]: the values a property cannot be read from and
    at which [?.] short-circuits. *)
Definition nullish (v : value) : bool :=
  match v with
  | VUndefined | VNull => true
  | _ => false
  end.

(** What a failing operation throws. *)
Inductive exn : Type :=
  | TypeError (target : value) (prop : string)
      (* Cannot read properties of <target> (reading '<prop>') *)
  | Raised (e : string).
      (* anything the engine, the HTTP client or a callback throws *)

Inductive result (A : Type) : Type :=
  | Ok (a : A)
  | Err (e : exn).
Arguments Ok {A} a.
Arguments Err {A} e.

(** [v.k] for a property name [k] that no built-in prototype defines (the
    driver reads data, user, union_id, display_name, avatar_large_url):
    reading from [undefined] or [null] throws, an object gives its own
    property or [undefined], any other value gives [undefined]. *)
Definition getProp (v : value) (k : string) : result value :=
  match v with
  | VUndefined | VNull => Err (TypeError v k)
  | VObj o => Ok (default VUndefined (o !! k))
  | _ => Ok VUndefined
  end.

(** [v?.k] *)
Definition getPropOpt (v : value) (k : string) : result value :=
  if nullish v then Ok VUndefined else getProp v k.

(** [Array.prototype.join] on an array of strings. *)
Fixpoint join (sep : string) (l : list string) : string :=
  match l with
  | [] => ""
  | [x] => x
  | x :: xs => x ++ sep ++ join sep xs
  end.

(** [a || b] on an optional string: [undefined] and the empty string are
    falsy. *)
Definition or_string (a : option string) (b : string) : string :=
  match a with
  | Some "" | None => b
  | Some s => s
  end.

(** [a || b] on an optional array: every array is truthy, the empty one
    too. *)
Definition or_array {A} (a : option (list A)) (b : list A) : list A :=
  match a with
  | Some l => l
  | None => b
  end.

(** ** Configuration, tokens, requests *)

Inductive TokenType : Type := bearer.

Record TikTokAccessToken : Type := mkToken {
  token : string;
  type : TokenType
}.

Record TikTokConfig : Type := mkConfig {
  clientId : string;
  clientSecret : string;
  callbackUrl : string;
  authorizeUrl : option string;
  accessTokenUrl : option string;
  userInfoUrl : option string;
  scopes : option (list string)
}.

(** The inbound request: [ctx.request.input(k)] reads key [k] of the merged
    query string and body, [undefined] when it is not there. *)
Record HttpContext : Type := mkCtx {
  request : gmap string value
}.

Definition input (ctx : HttpContext) (k : string) : value :=
  default VUndefined (request ctx !! k).

(** The engine's redirect-request builder: the URL and the query
    parameters written so far, oldest first. *)
Record RedirectRequest : Type := mkRedirect {
  redirectUrl : string;
  redirectQuery : list (string * value)
}.

(** [request.param(k, v)]: one more pair, after the ones written before. *)
Definition rparam (k : string) (v : value) (r : RedirectRequest) : RedirectRequest :=
  mkRedirect (redirectUrl r) (redirectQuery r ++ [(k, v)])%list.

(** [request.clearParam(k)]: no pair of key [k] is left. *)
Definition clearParam (k : string) (r : RedirectRequest) : RedirectRequest :=
  mkRedirect (redirectUrl r) (filter (fun kv => kv.1 <> k) (redirectQuery r)).

(** The key/value view of the query: the keys it holds, each with the
    value written last under it. *)
Definition redirectParams (r : RedirectRequest) : gmap string value :=
  list_to_map (reverse (redirectQuery r)).

Inductive ResponseType : Type := AsJson | AsText | AsBuffer.

(** What a request-customisation callback can reach of an API request: the
    base URL is fixed when the client is made. *)
Record RequestOptions : Type := mkOptions {
  headers : gmap string value;
  params : gmap string value;
  fields : gmap string value;
  responseType : option ResponseType
}.

Record ApiRequest : Type := mkRequest {
  baseUrl : string;
  options : RequestOptions
}.

Definition withOptions (f : RequestOptions -> RequestOptions) (r : ApiRequest) : ApiRequest :=
  mkRequest (baseUrl r) (f (options r)).

Definition header (k : string) (v : value) : ApiRequest -> ApiRequest :=
  withOptions (fun o => mkOptions (<[k := v]> (headers o)) (params o) (fields o) (responseType o)).

Definition param (k : string) (v : value) : ApiRequest -> ApiRequest :=
  withOptions (fun o => mkOptions (headers o) (<[k := v]> (params o)) (fields o) (responseType o)).

Definition field (k : string) (v : value) : ApiRequest -> ApiRequest :=
  withOptions (fun o => mkOptions (headers o) (params o) (<[k := v]> (fields o)) (responseType o)).

Definition parseAs (t : ResponseType) : ApiRequest -> ApiRequest :=
  withOptions (fun o => mkOptions (headers o) (params o) (fields o) (Some t)).

(** [this.httpClient(url)]: a client for [url] with nothing set yet. *)
Definition httpClient (url : string) : ApiRequest :=
  mkRequest url (mkOptions ∅ ∅ ∅ None).

(** ** The driver's constants *)

Module Defaults.
Definition authorizeUrl := "https://www.tiktok.com/v2/auth/authorize/".
Definition accessTokenUrl := "https://open.tiktokapis.com/v2/oauth/token/".
Definition userInfoUrl := "https://open.tiktokapis.com/v2/user/info/".
End Defaults.

Definition codeParamName := "code".
Definition errorParamName := "error".
Definition stateCookieName := "tiktok_oauth_state".
Definition stateParamName := "state".
Definition scopeParamName := "scope".
Definition scopesSeparator := " ".

Definition userProfileFields : list string :=
  ["open_id"; "union_id"; "avatar_url"; "avatar_url_100"; "avatar_large_url";
   "display_name"].

(** ** Request customisation *)

(** Method chaining on a builder. *)
Notation "r |> f" := (f r) (at level 45, left associativity, only parsing).

(** [error] is what the engine's [getError] answers for the inbound
    request: a string or [null]. *)
Definition accessDenied (error : option string) : bool :=
  match error with
  | None | Some "" => false
  | Some e => bool_decide (e = "invalid_request")
  end.

Definition configureRedirectRequest (config : TikTokConfig)
    (request : RedirectRequest) : RedirectRequest :=
  let scopes := or_array (scopes config) ["user.info.basic"] in
  let request := rparam scopeParamName (VStr (join "," scopes)) request in
  let request := rparam "client_key" (VStr (clientId config)) request in
  let request := rparam "response_type" (VStr "code") request in
  clearParam "client_id" request.

Definition configureAccessTokenRequest (config : TikTokConfig) (ctx : HttpContext)
    (request : ApiRequest) : ApiRequest :=
  request
    |> header "Content-Type" (VStr "application/x-www-form-urlencoded")
    |> field "grant_type" (VStr "authorization_code")
    |> field "client_key" (VStr (clientId config))
    |> field "client_secret" (VStr (clientSecret config))
    |> field "redirect_uri" (VStr (callbackUrl config))
    |> field "code" (input ctx codeParamName).

(** ** The world around the driver *)

(** A request-customisation callback mutates the request it is handed, or
    throws. *)
Definition Callback : Type := RequestOptions -> result RequestOptions.

(** The engine's code exchange ([this.accessToken]) and the HTTP client's
    [get], as the driver sees them.  The exchange posts the token request
    the driver customises from its configuration, so its answer depends on
    the configuration. *)
Record World : Type := mkWorld {
  exchange : TikTokConfig -> option Callback -> result TikTokAccessToken;
  http_get : ApiRequest -> result value
}.

(** What the driver asks of the world, in order. *)
Inductive event : Type :=
  | EvAccessToken
  | EvGet (request : ApiRequest).

(** Computations that can throw and that record their requests. *)
Definition M (A : Type) : Type := list event -> result A * list event.

Definition ret {A} (a : A) : M A := fun tr => (Ok a, tr).

Definition bind {A B} (m : M A) (f : A -> M B) : M B :=
  fun tr =>
    match m tr with
    | (Ok a, tr') => f a tr'
    | (Err e, tr') => (Err e, tr')
    end.

Definition lift {A} (r : result A) : M A := fun tr => (r, tr).

Notation "'let*' x ':=' m 'in' k" := (bind m (fun x => k))
  (at level 10, x name, m at level 100, k at level 200).

Definition outcome {A} (r : result A * list event) : result A := fst r.
Definition trace {A} (r : result A * list event) : list event := snd r.

(** How often the code exchange was asked for. *)
Fixpoint exchanges (tr : list event) : nat :=
  match tr with
  | [] => 0
  | EvAccessToken :: tr => S (exchanges tr)
  | EvGet _ :: tr => exchanges tr
  end.

(** The URLs fetched, in order. *)
Definition fetchTargets (tr : list event) : list string :=
  omap (fun ev => match ev with EvGet r => Some (baseUrl r) | _ => None end) tr.

(** ** The profile fetch *)

Record UserInfo : Type := mkUserInfo {
  id : value;
  nickName : value;
  name : value;
  avatarUrl : value;
  email : string;
  emailVerificationState : string;
  original : value
}.

(** [AllyUserContract<TikTokAccessToken>], as the two public fetches build
    it. *)
Module AllyUser.
Record t : Type := mk {
  id : value;
  nickName : value;
  name : value;
  avatarUrl : value;
  email : string;
  emailVerificationState : string;
  original : value;
  token : TikTokAccessToken
}.
End AllyUser.

(** [{ ...user, token: accessToken }] *)
Definition withToken (user : UserInfo) (accessToken : TikTokAccessToken) : AllyUser.t :=
  AllyUser.mk (id user) (nickName user) (name user) (avatarUrl user) (email user)
    (emailVerificationState user) (original user) accessToken.

Definition getAuthenticatedRequest (url : string) (token : string) : ApiRequest :=
  httpClient url
    |> header "Authorization" (VStr ("Bearer " ++ token))
    |> param "fields" (VStr (join "," userProfileFields))
    |> parseAs AsJson.

(** [if (typeof callback === 'function') callback(request)] *)
Definition applyCallback (callback : option Callback) (request : ApiRequest) : M ApiRequest :=
  match callback with
  | Some f => let* o := lift (f (options request)) in ret (mkRequest (baseUrl request) o)
  | None => ret request
  end.

(** [await request.get()] *)
Definition get (w : World) (request : ApiRequest) : M value :=
  fun tr => (http_get w request, (tr ++ [EvGet request])%list).

(** [await this.accessToken(callback)] *)
Definition accessToken (w : World) (config : TikTokConfig) (callback : option Callback)
    : M TikTokAccessToken :=
  fun tr => (exchange w config callback, (tr ++ [EvAccessToken])%list).

(** [response.data?.user] *)
Definition nestedUser (response : value) : result value :=
  match getProp response "data" with
  | Ok data => getPropOpt data "user"
  | Err e => Err e
  end.

Definition getUserInfo (w : World) (config : TikTokConfig) (token : string)
    (callback : option Callback) : M UserInfo :=
  let request :=
    getAuthenticatedRequest (or_string (userInfoUrl config) Defaults.userInfoUrl) token in
  let* request := applyCallback callback request in
  let* response := get w request in
  let* user := lift (nestedUser response) in
  let* id := lift (getProp user "union_id") in
  let* nickName := lift (getProp user "display_name") in
  let* name := lift (getProp user "display_name") in
  let* avatarUrl := lift (getProp user "avatar_large_url") in
  ret (mkUserInfo id nickName name avatarUrl "" "unsupported" response).

Definition user (w : World) (config : TikTokConfig) (callback : option Callback)
    : M AllyUser.t :=
  let* accessToken := accessToken w config callback in
  let* user := getUserInfo w config (token accessToken) callback in
  ret (withToken user accessToken).

Definition userFromToken (w : World) (config : TikTokConfig) (accessToken : string)
    (callback : option Callback) : M AllyUser.t :=
  let* user := getUserInfo w config accessToken callback in
  ret (withToken user (mkToken accessToken bearer)).

(** * Derived notions *)

(** The names of the form fields of a token exchange. *)
Definition tokenFields : gset string :=
  {[ "grant_type"; "client_key"; "client_secret"; "redirect_uri"; "code" ]}.

(** The request [getUserInfo] builds before the callback sees it. *)
Definition userInfoRequest (config : TikTokConfig) (token : string) : ApiRequest :=
  getAuthenticatedRequest (or_string (userInfoUrl config) Defaults.userInfoUrl) token.

(** The request after the callback, or what the callback threw. *)
Definition callbackResult (callback : option Callback) (request : ApiRequest)
    : result ApiRequest :=
  match callback with
  | Some f =>
      match f (options request) with
      | Ok o => Ok (mkRequest (baseUrl request) o)
      | Err e => Err e
      end
  | None => Ok request
  end.

(** The record [getUserInfo] makes of a response. *)
Definition profileOf (response : value) : result UserInfo :=
  match nestedUser response with
  | Ok user =>
      if nullish user then Err (TypeError user "union_id")
      else
        match getProp user "union_id", getProp user "display_name",
              getProp user "avatar_large_url" with
        | Ok id, Ok display, Ok avatar =>
            Ok (mkUserInfo id display display avatar "" "unsupported" response)
        | Err e, _, _ | _, Err e, _ | _, _, Err e => Err e
        end
  | Err e => Err e
  end.

(** What [getUserInfo] returns or throws, and what it asks of the world. *)
Definition fetchResult (w : World) (config : TikTokConfig) (token : string)
    (callback : option Callback) : result UserInfo :=
  match callbackResult callback (userInfoRequest config token) with
  | Ok request =>
      match http_get w request with
      | Ok response => profileOf response
      | Err e => Err e
      end
  | Err e => Err e
  end.

Definition fetchEvents (config : TikTokConfig) (token : string)
    (callback : option Callback) : list event :=
  match callbackResult callback (userInfoRequest config token) with
  | Ok request => [EvGet request]
  | Err _ => []
  end.

(** A response without the nested user object: [response.data?.user] is
    [undefined] or [null], or [response] itself is. *)
Definition lacksUser (response : value) : bool :=
  match nestedUser response with
  | Ok user => nullish user
  | Err _ => true
  end.

(** The URLs one profile fetch adds to the ones fetched before: [url] once
    the callback has returned, none when the callback threw. *)
Definition fetchesOnly (w : World) (config : TikTokConfig) (t : string)
    (callback : option Callback) (tr : list event) (url : string) : Prop :=
  fetchTargets (trace (getUserInfo w config t callback tr)) =
  (fetchTargets tr ++
   match callbackResult callback (userInfoRequest config t) with
   | Ok _ => [url]
   | Err _ => []
   end)%list.

(** The parameters the redirect customisation writes. *)
Definition redirectKeys : gset string :=
  {[ "scope"; "client_key"; "response_type" ]}.

(** [v.k] where [v] is neither [undefined] nor [null]. *)
Definition ownProp (v : value) (k : string) : value :=
  match v with
  | VObj o => default VUndefined (o !! k)
  | _ => VUndefined
  end.

(** * Sample inputs *)

(** A redirect request as the engine hands it over: callback and client
    id are set. *)
Definition freshRedirect : RedirectRequest :=
  mkRedirect Defaults.authorizeUrl
    [("redirect_uri", VStr "https://app.test/tiktok/callback");
     ("client_id", VStr "aw123")].

Definition twoScopes : TikTokConfig :=
  mkConfig "aw123" "s3cret" "https://app.test/tiktok/callback" None None None
    (Some ["user.info.basic"; "video.list"]).

(** The callback request of a granted authorisation. *)
Definition grantedCallback : HttpContext :=
  mkCtx (<["code" := VStr "c0de"]> (<["state" := VStr "xyz"]> ∅)).

(** A token request as the engine hands it over: grant type, callback URL,
    client id and secret are set under their standard names. *)
Definition engineTokenRequest : ApiRequest :=
  httpClient Defaults.accessTokenUrl
    |> field "grant_type" (VStr "authorization_code")
    |> field "redirect_uri" (VStr "https://app.test/tiktok/callback")
    |> field "client_id" (VStr "aw123")
    |> field "client_secret" (VStr "s3cret").

(** A token request that already carries the standard client_id field. *)
Definition presetRequest : ApiRequest :=
  httpClient Defaults.accessTokenUrl |> field "client_id" (VStr "aw123").

Definition aliceUser : gmap string value :=
  <["union_id" := VStr "u1"]>
    (<["display_name" := VStr "Alice"]>
      (<["avatar_large_url" := VStr "http://a/av.png"]>
        (<["open_id" := VStr "o1"]> ∅))).

Definition aliceResponse : value :=
  VObj (<["data" := VObj (<["user" := VObj aliceUser]> ∅)]>
         (<["error" := VObj (<["code" := VStr "ok"]> ∅)]> ∅)).

(** An error body: data is there, the user is not. *)
Definition deniedResponse : value :=
  VObj (<["data" := VObj ∅]>
         (<["error" := VObj (<["code" := VStr "access_token_invalid"]> ∅)]> ∅)).

(** The three required settings and nothing else. *)
Definition plainConfig : TikTokConfig :=
  mkConfig "aw123" "s3cret" "https://app.test/tiktok/callback" None None None None.

Definition overridden (url : string) : TikTokConfig :=
  mkConfig "aw123" "s3cret" "https://app.test/tiktok/callback" None None (Some url) None.

(** A world whose code exchange gives the token tok and whose transport
    answers every request with [response]. *)
Definition answering (response : value) : World :=
  mkWorld (fun _ _ => Ok (mkToken "tok" bearer)) (fun _ => Ok response).

(** A callback that adds a header to the request it is handed. *)
Definition stamping : Callback :=
  fun o => Ok (mkOptions (<["X-Request-Id" := VStr "r-17"]> (headers o)) (params o)
                 (fields o) (responseType o)).

(** A callback that throws. *)
Definition refusing : Callback := fun _ => Err (Raised "callback failed").

(** A world whose code exchange is rejected. *)
Definition rejecting : World :=
  mkWorld (fun _ _ => Err (Raised "E_OAUTH_STATE_MISMATCH")) (fun _ => Ok aliceResponse).

(** A world whose transport fails. *)
Definition offline : World :=
  mkWorld (fun _ _ => Ok (mkToken "tok" bearer)) (fun _ => Err (Raised "ECONNREFUSED")).

(** A response whose user object holds a display name and nothing else. *)
Definition namelessResponse : value :=
  VObj (<["data" := VObj (<["user" := VObj (<["display_name" := VStr "Bob"]> ∅)]> ∅)]> ∅).

(** * Properties *)

(** ** The redirect request *)

Lemma redirectParams_rparam k v r :
  redirectParams (rparam k v r) = <[k := v]> (redirectParams r).
Proof. unfold redirectParams, rparam. cbn [redirectQuery]. by rewrite reverse_snoc. Qed.

Lemma list_to_map_clear (k : string) (l : list (string * value)) :
  list_to_map (filter (fun kv => kv.1 <> k) l) =@{gmap string value} delete k (list_to_map l).
Proof.
  induction l as [|[j v] l IH].
  - rewrite filter_nil, list_to_map_nil. by rewrite delete_empty.
  - rewrite list_to_map_cons. destruct (decide (j = k)) as [-> | Hne].
    + rewrite filter_cons_False by (intros H; by apply H).
      rewrite IH. apply map_eq. intros i. destruct (decide (i = k)) as [-> | Hi].
      * by rewrite !lookup_delete_eq.
      * rewrite !lookup_delete_ne by done. by rewrite lookup_insert_ne.
    + rewrite filter_cons_True by done. rewrite list_to_map_cons, IH.
      apply map_eq. intros i. destruct (decide (i = k)) as [-> | Hi].
      * rewrite lookup_delete_eq, lookup_insert_ne by done. by rewrite lookup_delete_eq.
      * rewrite lookup_delete_ne by done.
        destruct (decide (i = j)) as [-> | Hj].
        -- by rewrite !lookup_insert_eq.
        -- rewrite !lookup_insert_ne by done. by rewrite lookup_delete_ne.
Qed.

Lemma redirectParams_clearParam k r :
  redirectParams (clearParam k r) = delete k (redirectParams r).
Proof.
  unfold redirectParams, clearParam. cbn [redirectQuery].
  by rewrite <- filter_reverse, list_to_map_clear.
Qed.

Lemma freshRedirect_params :
  redirectParams freshRedirect =
  <["client_id" := VStr "aw123"]>
    (<["redirect_uri" := VStr "https://app.test/tiktok/callback"]> ∅).
Proof. reflexivity. Qed.

Section Redirect.
Variable config : TikTokConfig.
Variable request : RedirectRequest.

Lemma configureRedirectRequest_params :
  redirectParams (configureRedirectRequest config request) =
  delete "client_id"
    (<["response_type" := VStr "code"]>
      (<["client_key" := VStr (clientId config)]>
        (<["scope" := VStr (join "," (or_array (scopes config) ["user.info.basic"]))]>
          (redirectParams request)))).
Proof.
  unfold configureRedirectRequest.
  by rewrite redirectParams_clearParam, !redirectParams_rparam.
Qed.

Lemma configureRedirectRequest_scope :
  redirectParams (configureRedirectRequest config request) !! "scope" =
  Some (VStr (join "," (or_array (scopes config) ["user.info.basic"]))).
Proof. rewrite configureRedirectRequest_params. by simplify_map_eq. Qed.

Lemma configureRedirectRequest_url :
  redirectUrl (configureRedirectRequest config request) = redirectUrl request.
Proof. reflexivity. Qed.
End Redirect.

(** C1, evaluated on the code: with the two scopes user.info.basic and
    video.list configured, the redirect's scope parameter is the two names
    joined by a comma, which is not the list joined by [scopesSeparator],
    the single space the class declares as the separator of scopes. *)
Lemma configureRedirectRequest_scope_comma :
  scopes twoScopes = Some ["user.info.basic"; "video.list"] /\
  redirectParams (configureRedirectRequest twoScopes freshRedirect) !! "scope" =
    Some (VStr "user.info.basic,video.list") /\
  redirectParams (configureRedirectRequest twoScopes freshRedirect) !! "scope" <>
    Some (VStr (join scopesSeparator ["user.info.basic"; "video.list"])).
Proof.
  rewrite configureRedirectRequest_scope. repeat split. discriminate.
Qed.

(** C6: for every configuration and every redirect request, the customised
    request carries client_key equal to the configured client id and
    response_type equal to code, and carries no client_id. *)
Theorem configureRedirectRequest_client_key (config : TikTokConfig) (request : RedirectRequest) :
  let params := redirectParams (configureRedirectRequest config request) in
  params !! "client_key" = Some (VStr (clientId config)) /\
  params !! "response_type" = Some (VStr "code") /\
  params !! "client_id" = None.
Proof.
  cbv zeta. rewrite configureRedirectRequest_params.
  repeat split; by simplify_map_eq.
Qed.

(** C7: for every configuration whose scope list is unspecified, the
    customised redirect request carries the scope parameter
    user.info.basic, the single default scope. *)
Theorem configureRedirectRequest_default_scope (config : TikTokConfig)
    (request : RedirectRequest) :
  scopes config = None ->
  redirectParams (configureRedirectRequest config request) !! "scope" =
    Some (VStr "user.info.basic").
Proof.
  intros Hnone. rewrite configureRedirectRequest_scope, Hnone. reflexivity.
Qed.

Lemma configureRedirectRequest_default_scope_witness :
  redirectParams
    (configureRedirectRequest
       (mkConfig "aw123" "s3cret" "https://app.test/tiktok/callback" None None None None)
       freshRedirect) !! "scope" = Some (VStr "user.info.basic").
Proof. apply configureRedirectRequest_default_scope. reflexivity. Defined.

(** C10: for every configuration whose scope list is present and empty,
    the customised redirect request carries the empty string as scope
    parameter, not the default scope: the default stands in for an absent
    list only. *)
Theorem configureRedirectRequest_empty_scopes (config : TikTokConfig)
    (request : RedirectRequest) :
  scopes config = Some [] ->
  redirectParams (configureRedirectRequest config request) !! "scope" = Some (VStr "") /\
  redirectParams (configureRedirectRequest config request) !! "scope" <>
    Some (VStr "user.info.basic").
Proof.
  intros Hempty. rewrite configureRedirectRequest_scope, Hempty.
  split; [reflexivity | discriminate].
Qed.

Lemma configureRedirectRequest_empty_scopes_witness :
  redirectParams
    (configureRedirectRequest
       (mkConfig "aw123" "s3cret" "https://app.test/tiktok/callback" None None None (Some []))
       freshRedirect) !! "scope" = Some (VStr "").
Proof. apply configureRedirectRequest_empty_scopes. reflexivity. Defined.

(** ** The token-exchange request *)

Section AccessTokenRequest.
Variable config : TikTokConfig.
Variable ctx : HttpContext.
Variable request : ApiRequest.

Lemma configureAccessTokenRequest_fields :
  fields (options (configureAccessTokenRequest config ctx request)) =
  <["code" := input ctx "code"]>
    (<["redirect_uri" := VStr (callbackUrl config)]>
      (<["client_secret" := VStr (clientSecret config)]>
        (<["client_key" := VStr (clientId config)]>
          (<["grant_type" := VStr "authorization_code"]>
            (fields (options request)))))).
Proof. reflexivity. Qed.

Lemma configureAccessTokenRequest_headers :
  headers (options (configureAccessTokenRequest config ctx request)) =
  <["Content-Type" := VStr "application/x-www-form-urlencoded"]>
    (headers (options request)).
Proof. reflexivity. Qed.

Lemma configureAccessTokenRequest_dom :
  dom (fields (options (configureAccessTokenRequest config ctx request))) =
  tokenFields ∪ dom (fields (options request)).
Proof.
  rewrite configureAccessTokenRequest_fields, !dom_insert_L.
  unfold tokenFields. set_solver.
Qed.

Lemma configureAccessTokenRequest_frame :
  baseUrl (configureAccessTokenRequest config ctx request) = baseUrl request /\
  params (options (configureAccessTokenRequest config ctx request)) =
    params (options request) /\
  responseType (options (configureAccessTokenRequest config ctx request)) =
    responseType (options request).
Proof. repeat split. Qed.
End AccessTokenRequest.

(** For every configuration, inbound request and request, customising
    the token-exchange request sets grant_type to authorization_code,
    client_key to the configured client id, client_secret to the configured
    secret, redirect_uri to the configured callback URL and code to the
    code read from the inbound request, and sets the Content-Type header to
    form-url-encoded.  It touches no other field: the form body of a
    client that had no field holds exactly these five, and a field that
    was there under another name stays. *)
Theorem configureAccessTokenRequest_body (config : TikTokConfig) (ctx : HttpContext) :
  (forall request : ApiRequest,
     let request' := configureAccessTokenRequest config ctx request in
     let body := fields (options request') in
     body !! "grant_type" = Some (VStr "authorization_code") /\
     body !! "client_key" = Some (VStr (clientId config)) /\
     body !! "client_secret" = Some (VStr (clientSecret config)) /\
     body !! "redirect_uri" = Some (VStr (callbackUrl config)) /\
     body !! "code" = Some (input ctx codeParamName) /\
     headers (options request') !! "Content-Type" =
       Some (VStr "application/x-www-form-urlencoded") /\
     (forall k : string, k ∉ tokenFields -> body !! k = fields (options request) !! k)) /\
  (forall url : string,
     dom (fields (options (configureAccessTokenRequest config ctx (httpClient url)))) =
     tokenFields /\
     size (fields (options (configureAccessTokenRequest config ctx (httpClient url)))) = 5).
Proof.
  split.
  - intros request. cbv zeta.
    rewrite configureAccessTokenRequest_fields, configureAccessTokenRequest_headers.
    repeat split; try by simplify_map_eq.
    intros k Hk. unfold tokenFields in Hk.
    rewrite !lookup_insert_ne; [done | set_solver ..].
  - intros url.
    assert (Hdom : dom (fields (options (configureAccessTokenRequest config ctx (httpClient url))))
                   = tokenFields).
    { rewrite configureAccessTokenRequest_dom. cbn. set_solver. }
    split; [exact Hdom |].
    rewrite <- size_dom, Hdom. reflexivity.
Qed.

Lemma configureAccessTokenRequest_body_witness :
  fields (options (configureAccessTokenRequest plainConfig grantedCallback presetRequest))
    !! "code" = Some (VStr "c0de") /\
  fields (options (configureAccessTokenRequest plainConfig grantedCallback presetRequest))
    !! "client_id" = Some (VStr "aw123") /\
  dom (fields (options (configureAccessTokenRequest plainConfig grantedCallback
                          (httpClient Defaults.accessTokenUrl)))) = tokenFields.
Proof.
  destruct (configureAccessTokenRequest_body plainConfig grantedCallback) as [Hsets Hnew].
  destruct (Hsets presetRequest) as (_ & _ & _ & _ & Hcode & _ & Hframe).
  split; [exact Hcode |]. split.
  - rewrite Hframe; [reflexivity |]. unfold tokenFields. set_solver.
  - apply Hnew.
Defined.

Lemma engineTokenRequest_dom :
  dom (fields (options engineTokenRequest)) =
  {[ "grant_type"; "redirect_uri"; "client_id"; "client_secret" ]}.
Proof.
  unfold engineTokenRequest, field, withOptions, httpClient. cbn [fields options].
  rewrite !dom_insert_L, dom_empty_L. set_solver.
Qed.

(** C3, evaluated on the code: on the token request as the engine hands it
    over, the customised form body holds six fields, not five.  The
    standard client_id stays beside the client_key that is written, while
    the redirect customisation of the same driver removes client_id. *)
Lemma configureAccessTokenRequest_keeps_client_id :
  let body :=
    fields (options (configureAccessTokenRequest plainConfig grantedCallback
                       engineTokenRequest)) in
  body !! "client_key" = Some (VStr "aw123") /\
  body !! "client_id" = Some (VStr "aw123") /\
  dom body = tokenFields ∪ {["client_id"]} /\
  dom body <> tokenFields /\
  size body = 6 /\
  redirectParams (configureRedirectRequest plainConfig freshRedirect) !! "client_id" = None.
Proof.
  cbv zeta.
  assert (Hdom : dom (fields (options (configureAccessTokenRequest plainConfig
                                          grantedCallback engineTokenRequest))) =
                 tokenFields ∪ {["client_id"]}).
  { rewrite configureAccessTokenRequest_dom, engineTokenRequest_dom.
    unfold tokenFields. set_solver. }
  split; [| split; [| split; [| split; [| split]]]].
  - rewrite configureAccessTokenRequest_fields. by simplify_map_eq.
  - rewrite configureAccessTokenRequest_fields.
    rewrite !lookup_insert_ne by done. reflexivity.
  - exact Hdom.
  - rewrite Hdom. unfold tokenFields. intros Heq.
    assert (Hin : "client_id" ∈@{gset string}
                  {[ "grant_type"; "client_key"; "client_secret"; "redirect_uri"; "code" ]}).
    { rewrite <- Heq. set_solver. }
    rewrite !elem_of_union, !elem_of_singleton in Hin.
    destruct Hin as [[[[H | H] | H] | H] | H]; discriminate.
  - rewrite <- size_dom, Hdom. reflexivity.
  - rewrite configureRedirectRequest_params. apply lookup_delete_eq.
Qed.

(** ** The access-denied predicate *)

(** C4: the predicate answers true exactly when the error the engine
    extracted from the inbound request is the string invalid_request; an
    absent error, the empty string and any other code such as
    access_denied give false. *)
Theorem accessDenied_iff (error : option string) :
  (accessDenied error = true <-> error = Some "invalid_request") /\
  accessDenied None = false /\
  accessDenied (Some "") = false /\
  accessDenied (Some "access_denied") = false.
Proof.
  repeat split; try done.
  - destruct error as [[|a e]|]; cbn; try done.
    intros He%bool_decide_eq_true. by rewrite He.
  - intros ->. reflexivity.
Qed.

(** ** The profile fetch *)

Lemma getProp_nullish v k :
  nullish v = true -> getProp v k = Err (TypeError v k).
Proof. by destruct v. Qed.

Lemma getProp_defined v k :
  nullish v = false -> exists x, getProp v k = Ok x.
Proof. destruct v; cbn; intros; try done; eauto. Qed.

Lemma applyCallback_run callback request tr :
  applyCallback callback request tr = (callbackResult callback request, tr).
Proof.
  unfold applyCallback, callbackResult. destruct callback as [f|]; [| done].
  unfold bind, lift, ret. by destruct (f (options request)).
Qed.

Lemma getUserInfo_run w config token callback tr :
  getUserInfo w config token callback tr =
  (fetchResult w config token callback, (tr ++ fetchEvents config token callback)%list).
Proof.
  unfold getUserInfo, fetchResult, fetchEvents. fold (userInfoRequest config token).
  unfold bind at 1. rewrite applyCallback_run.
  destruct (callbackResult callback (userInfoRequest config token)) as [req|e];
    [| by rewrite app_nil_r].
  unfold bind at 1, get. destruct (http_get w req) as [resp|e]; [| done].
  unfold profileOf, bind, lift, ret.
  destruct (nestedUser resp) as [usr|e]; [| done].
  destruct (nullish usr) eqn:Hn.
  - by rewrite getProp_nullish.
  - destruct (getProp_defined usr "union_id" Hn) as [x1 ->].
    destruct (getProp_defined usr "display_name" Hn) as [x2 ->].
    by destruct (getProp_defined usr "avatar_large_url" Hn) as [x3 ->].
Qed.

Lemma userFromToken_run w config t callback tr :
  userFromToken w config t callback tr =
  (match fetchResult w config t callback with
   | Ok p => Ok (withToken p (mkToken t bearer))
   | Err e => Err e
   end, (tr ++ fetchEvents config t callback)%list).
Proof.
  unfold userFromToken, bind. rewrite getUserInfo_run.
  by destruct (fetchResult w config t callback).
Qed.

Lemma user_run w config callback tr :
  user w config callback tr =
  match exchange w config callback with
  | Ok tk =>
      (match fetchResult w config (token tk) callback with
       | Ok p => Ok (withToken p tk)
       | Err e => Err e
       end, ((tr ++ [EvAccessToken]) ++ fetchEvents config (token tk) callback)%list)
  | Err e => (Err e, (tr ++ [EvAccessToken])%list)
  end.
Proof.
  unfold user, bind, accessToken.
  destruct (exchange w config callback) as [tk|e]; [| done].
  rewrite getUserInfo_run. by destruct (fetchResult w config (token tk) callback).
Qed.

Lemma exchanges_app tr1 tr2 : exchanges (tr1 ++ tr2) = exchanges tr1 + exchanges tr2.
Proof.
  induction tr1 as [|[|r] tr1 IH]; cbn; [done | by rewrite IH | done].
Qed.

Lemma fetchTargets_app tr1 tr2 :
  fetchTargets (tr1 ++ tr2) = (fetchTargets tr1 ++ fetchTargets tr2)%list.
Proof. apply omap_app. Qed.

Lemma fetchEvents_exchanges config t callback :
  exchanges (fetchEvents config t callback) = 0.
Proof.
  unfold fetchEvents. by destruct (callbackResult callback (userInfoRequest config t)).
Qed.

Lemma callbackResult_baseUrl callback request request' :
  callbackResult callback request = Ok request' -> baseUrl request' = baseUrl request.
Proof.
  unfold callbackResult. destruct callback as [f|]; [| by intros [= ->]].
  destruct (f (options request)); [by intros [= <-] | done].
Qed.

(** C2: when the code exchange gives the token [tk] and the user-info
    response is well formed, its nested user object holding union_id [u],
    display_name [d] and avatar_large_url [a], then fetching the
    authenticated user returns the record with id [u], name and nickName
    [d], avatarUrl [a], the empty email, the verification state unsupported
    and [tk] itself as token. *)
Theorem user_well_formed (w : World) (config : TikTokConfig) (callback : option Callback)
    (tr : list event) (tk : TikTokAccessToken) (request : ApiRequest)
    (response u d a : value) (body data usr : gmap string value) :
  exchange w config callback = Ok tk ->
  callbackResult callback (userInfoRequest config (token tk)) = Ok request ->
  http_get w request = Ok response ->
  response = VObj body ->
  body !! "data" = Some (VObj data) ->
  data !! "user" = Some (VObj usr) ->
  usr !! "union_id" = Some u ->
  usr !! "display_name" = Some d ->
  usr !! "avatar_large_url" = Some a ->
  outcome (user w config callback tr) =
    Ok {| AllyUser.id := u;
          AllyUser.nickName := d;
          AllyUser.name := d;
          AllyUser.avatarUrl := a;
          AllyUser.email := "";
          AllyUser.emailVerificationState := "unsupported";
          AllyUser.original := response;
          AllyUser.token := tk |}.
Proof.
  intros Hex Hcb Hget -> Hdata Huser Hid Hname Havatar.
  rewrite user_run, Hex. unfold outcome, fetchResult. cbn [fst].
  rewrite Hcb, Hget. unfold profileOf, nestedUser, getPropOpt. cbn.
  rewrite Hdata. cbn. rewrite Huser. cbn. rewrite Hid, Hname, Havatar.
  reflexivity.
Qed.

Lemma user_well_formed_witness :
  outcome (user (answering aliceResponse) plainConfig None []) =
    Ok {| AllyUser.id := VStr "u1";
          AllyUser.nickName := VStr "Alice";
          AllyUser.name := VStr "Alice";
          AllyUser.avatarUrl := VStr "http://a/av.png";
          AllyUser.email := "";
          AllyUser.emailVerificationState := "unsupported";
          AllyUser.original := aliceResponse;
          AllyUser.token := mkToken "tok" bearer |}.
Proof.
  eapply (user_well_formed (answering aliceResponse) plainConfig None []
            (mkToken "tok" bearer) (userInfoRequest plainConfig "tok") aliceResponse);
    reflexivity.
Defined.

(** C5: fetching the user from a held token [t] asks for no code
    exchange; every record it returns embeds exactly the token [t] of type
    bearer; and it does return one whenever the callback and the transport
    succeed and the response holds the nested user. *)
Theorem userFromToken_token (w : World) (config : TikTokConfig) (t : string)
    (callback : option Callback) (tr : list event) :
  exchanges (trace (userFromToken w config t callback tr)) = exchanges tr /\
  (forall u : AllyUser.t,
     outcome (userFromToken w config t callback tr) = Ok u ->
     AllyUser.token u = {| token := t; type := bearer |}) /\
  (forall (request : ApiRequest) (response : value),
     callbackResult callback (userInfoRequest config t) = Ok request ->
     http_get w request = Ok response ->
     lacksUser response = false ->
     exists u : AllyUser.t,
       outcome (userFromToken w config t callback tr) = Ok u /\
       AllyUser.token u = {| token := t; type := bearer |}).
Proof.
  rewrite userFromToken_run. unfold trace, outcome. cbn [fst snd].
  split; [| split].
  - rewrite exchanges_app, fetchEvents_exchanges. lia.
  - intros u. destruct (fetchResult w config t callback); [| done].
    by intros [= <-].
  - intros request response Hcb Hget Hhas.
    unfold fetchResult. rewrite Hcb, Hget.
    unfold lacksUser in Hhas. unfold profileOf.
    destruct (nestedUser response) as [usr|]; [| done].
    rewrite Hhas.
    destruct (getProp_defined usr "union_id" Hhas) as [x1 ->].
    destruct (getProp_defined usr "display_name" Hhas) as [x2 ->].
    destruct (getProp_defined usr "avatar_large_url" Hhas) as [x3 ->].
    eexists. split; reflexivity.
Qed.

Lemma userFromToken_token_witness :
  exchanges (trace (userFromToken (answering aliceResponse) plainConfig "tok2" None [])) = 0 /\
  exists u : AllyUser.t,
    outcome (userFromToken (answering aliceResponse) plainConfig "tok2" None []) = Ok u /\
    AllyUser.token u = {| token := "tok2"; type := bearer |}.
Proof.
  destruct (userFromToken_token (answering aliceResponse) plainConfig "tok2" None [])
    as (Hnone & _ & Hreturns).
  split; [exact Hnone |].
  apply (Hreturns (userInfoRequest plainConfig "tok2") aliceResponse); reflexivity.
Defined.

Lemma getUserInfo_fetches w config t callback tr :
  fetchesOnly w config t callback tr (or_string (userInfoUrl config) Defaults.userInfoUrl).
Proof.
  unfold fetchesOnly, trace. rewrite getUserInfo_run. cbn [snd].
  rewrite fetchTargets_app. f_equal. unfold fetchEvents.
  destruct (callbackResult callback (userInfoRequest config t)) as [req|e] eqn:Hcb;
    [| done].
  cbn. by rewrite (callbackResult_baseUrl _ _ _ Hcb).
Qed.

(** C8 as stated fails on the empty string: a configuration whose
    userInfoUrl is the empty string has the profile fetched from the
    built-in default, not from the URL it supplies. *)
Lemma getUserInfo_empty_override :
  userInfoUrl (overridden "") = Some "" /\
  fetchTargets (trace (getUserInfo (answering aliceResponse) (overridden "") "tok" None [])) =
    [Defaults.userInfoUrl] /\
  ~ fetchesOnly (answering aliceResponse) (overridden "") "tok" None [] "".
Proof.
  split; [reflexivity |]. split; [reflexivity |].
  unfold fetchesOnly. cbn. discriminate.
Qed.

(** C8, amended: a configuration that supplies a non-empty userInfoUrl has
    the profile fetched from that URL; a configuration that supplies none,
    or the empty string, has it fetched from the built-in default. *)
Theorem getUserInfo_target (w : World) (config : TikTokConfig) (t : string)
    (callback : option Callback) (tr : list event) :
  (forall url : string,
     userInfoUrl config = Some url -> url <> "" ->
     fetchesOnly w config t callback tr url) /\
  (userInfoUrl config = None ->
     fetchesOnly w config t callback tr Defaults.userInfoUrl) /\
  (userInfoUrl config = Some "" ->
     fetchesOnly w config t callback tr Defaults.userInfoUrl).
Proof.
  pose proof (getUserInfo_fetches w config t callback tr) as H.
  split; [| split].
  - intros url Hurl Hne. rewrite Hurl in H. by destruct url.
  - intros Hurl. by rewrite Hurl in H.
  - intros Hurl. by rewrite Hurl in H.
Qed.

Lemma getUserInfo_target_witness :
  fetchTargets
    (trace (getUserInfo (answering aliceResponse) (overridden "https://proxy.test/user/")
              "tok" None [])) = ["https://proxy.test/user/"] /\
  fetchTargets (trace (getUserInfo (answering aliceResponse) plainConfig "tok" None [])) =
    ["https://open.tiktokapis.com/v2/user/info/"].
Proof.
  split.
  - destruct (getUserInfo_target (answering aliceResponse)
                (overridden "https://proxy.test/user/") "tok" None []) as (Hset & _ & _).
    apply (Hset "https://proxy.test/user/"); [reflexivity | discriminate].
  - destruct (getUserInfo_target (answering aliceResponse) plainConfig "tok" None [])
      as (_ & Hnone & _).
    apply Hnone. reflexivity.
Defined.

(** Failures pass through the two public fetches as they are. *)
Lemma userFromToken_propagates w config t callback tr e :
  outcome (getUserInfo w config t callback tr) = Err e ->
  outcome (userFromToken w config t callback tr) = Err e.
Proof.
  rewrite getUserInfo_run, userFromToken_run. unfold outcome. cbn [fst].
  by intros ->.
Qed.

Lemma user_propagates_fetch w config callback tr tk e :
  exchange w config callback = Ok tk ->
  outcome (getUserInfo w config (token tk) callback (tr ++ [EvAccessToken])%list) = Err e ->
  outcome (user w config callback tr) = Err e.
Proof.
  intros Hex. rewrite getUserInfo_run, user_run, Hex. unfold outcome. cbn [fst].
  by intros ->.
Qed.

Lemma user_propagates_exchange w config callback tr e :
  exchange w config callback = Err e ->
  outcome (user w config callback tr) = Err e.
Proof. intros Hex. by rewrite user_run, Hex. Qed.

Lemma getUserInfo_propagates_get w config t callback tr request e :
  callbackResult callback (userInfoRequest config t) = Ok request ->
  http_get w request = Err e ->
  outcome (getUserInfo w config t callback tr) = Err e.
Proof.
  intros Hcb Hget. rewrite getUserInfo_run. unfold outcome, fetchResult. cbn [fst].
  by rewrite Hcb, Hget.
Qed.

Lemma profileOf_lacksUser response :
  lacksUser response = true ->
  exists target prop,
    nullish target = true /\ profileOf response = Err (TypeError target prop).
Proof.
  unfold lacksUser, profileOf, nestedUser.
  destruct (getProp response "data") as [data|e] eqn:Hdata.
  - destruct (getPropOpt data "user") as [usr|e] eqn:Huser.
    + intros Hn. rewrite Hn. by exists usr, "union_id".
    + intros _. unfold getPropOpt in Huser.
      destruct (nullish data) eqn:Hn; [done |].
      by destruct (getProp_defined data "user" Hn) as [x Hx]; rewrite Hx in Huser.
  - intros _. destruct response; try done.
    all: injection Hdata as <-; eexists _, _; split; [| reflexivity]; reflexivity.
Qed.

(** C9: when the user-info response lacks the nested user object, the
    profile fetch returns no record: it fails with the TypeError of reading
    a property of [undefined] or [null], and both public fetches fail with
    that same error. *)
Theorem getUserInfo_missing_user (w : World) (config : TikTokConfig) (t : string)
    (callback : option Callback) (tr : list event) (request : ApiRequest)
    (response : value) :
  callbackResult callback (userInfoRequest config t) = Ok request ->
  http_get w request = Ok response ->
  lacksUser response = true ->
  exists (target : value) (prop : string),
    nullish target = true /\
    outcome (getUserInfo w config t callback tr) = Err (TypeError target prop) /\
    outcome (userFromToken w config t callback tr) = Err (TypeError target prop) /\
    (forall tk : TikTokAccessToken,
       exchange w config callback = Ok tk -> token tk = t ->
       outcome (user w config callback tr) = Err (TypeError target prop)).
Proof.
  intros Hcb Hget Hlacks.
  destruct (profileOf_lacksUser response Hlacks) as (target & prop & Hnull & Hprofile).
  assert (Hfetch : forall tr', outcome (getUserInfo w config t callback tr') =
                               Err (TypeError target prop)).
  { intros tr'. rewrite getUserInfo_run. unfold outcome, fetchResult. cbn [fst].
    by rewrite Hcb, Hget. }
  exists target, prop. repeat split; [done | apply Hfetch | |].
  - apply userFromToken_propagates, Hfetch.
  - intros tk Hex <-. by apply (user_propagates_fetch _ _ _ _ tk).
Qed.

Lemma getUserInfo_missing_user_witness :
  exists (target : value) (prop : string),
    nullish target = true /\
    outcome (getUserInfo (answering deniedResponse) plainConfig "tok" None []) =
      Err (TypeError target prop) /\
    outcome (userFromToken (answering deniedResponse) plainConfig "tok" None []) =
      Err (TypeError target prop) /\
    (forall tk : TikTokAccessToken,
       exchange (answering deniedResponse) plainConfig None = Ok tk -> token tk = "tok" ->
       outcome (user (answering deniedResponse) plainConfig None []) =
         Err (TypeError target prop)).
Proof.
  apply (getUserInfo_missing_user (answering deniedResponse) plainConfig "tok" None []
           (userInfoRequest plainConfig "tok") deniedResponse); reflexivity.
Defined.

(** A body that holds the user object at its top level, without the data
    wrapper, is such a response. *)
Example getUserInfo_unwrapped_user :
  outcome (getUserInfo (answering (VObj (<["user" := VObj aliceUser]> ∅))) plainConfig
             "tok" None []) = Err (TypeError VUndefined "union_id").
Proof. reflexivity. Qed.

Example getUserInfo_missing_user_error :
  outcome (user (answering deniedResponse) plainConfig None []) =
    Err (TypeError VUndefined "union_id").
Proof. reflexivity. Qed.

(** * Further properties *)

(** ** The redirect request, beyond its three parameters *)

(** The customisation writes scope, client_key and response_type, removes
    client_id and leaves the URL and every other parameter (redirect_uri,
    state, ...) as the engine set them. *)
Theorem configureRedirectRequest_keeps_others (config : TikTokConfig)
    (request : RedirectRequest) :
  redirectUrl (configureRedirectRequest config request) = redirectUrl request /\
  dom (redirectParams (configureRedirectRequest config request)) =
    (dom (redirectParams request) ∪ redirectKeys) ∖ {["client_id"]} /\
  (forall k : string,
     k ∉ redirectKeys -> k <> "client_id" ->
     redirectParams (configureRedirectRequest config request) !! k =
     redirectParams request !! k).
Proof.
  split; [reflexivity |]. rewrite configureRedirectRequest_params. split.
  - rewrite dom_delete_L, !dom_insert_L. unfold redirectKeys. set_solver.
  - intros k Hk Hid. unfold redirectKeys in Hk.
    rewrite lookup_delete_ne by done.
    rewrite !lookup_insert_ne; [done | set_solver ..].
Qed.

Lemma configureRedirectRequest_keeps_others_witness :
  redirectParams (configureRedirectRequest twoScopes freshRedirect) !! "redirect_uri" =
    Some (VStr "https://app.test/tiktok/callback") /\
  dom (redirectParams (configureRedirectRequest twoScopes freshRedirect)) =
    {[ "redirect_uri"; "scope"; "client_key"; "response_type" ]}.
Proof.
  destruct (configureRedirectRequest_keeps_others twoScopes freshRedirect)
    as (_ & Hdom & Hframe).
  split.
  - rewrite Hframe; [reflexivity | unfold redirectKeys; set_solver | discriminate].
  - rewrite Hdom, freshRedirect_params. unfold redirectKeys.
    rewrite !dom_insert_L, dom_empty_L.
    apply set_eq. intros k. rewrite !elem_of_difference, !elem_of_union, !elem_of_singleton.
    split.
    + intros [Hin Hne]. set_solver.
    + intros Hin. split; [set_solver |].
      destruct Hin as [[[-> | ->] | ->] | ->]; discriminate.
Defined.

Lemma join_short (sep sep' : string) (l : list string) :
  length l <= 1 -> join sep l = join sep' l.
Proof.
  destruct l as [|x [|y l]]; cbn; [done | done | lia].
Qed.

(** With at most one scope configured no separator is written: the scope
    parameter is then also the list joined by [scopesSeparator]. *)
Theorem configureRedirectRequest_short_scopes (config : TikTokConfig)
    (request : RedirectRequest) (ss : list string) :
  scopes config = Some ss ->
  length ss <= 1 ->
  redirectParams (configureRedirectRequest config request) !! "scope" =
    Some (VStr (join scopesSeparator ss)).
Proof.
  intros Hs Hlen. rewrite configureRedirectRequest_scope, Hs. cbn.
  by rewrite (join_short "," scopesSeparator).
Qed.

Lemma configureRedirectRequest_short_scopes_witness :
  redirectParams
    (configureRedirectRequest
       (mkConfig "aw123" "s3cret" "https://app.test/tiktok/callback" None None None
          (Some ["video.list"]))
       freshRedirect) !! "scope" = Some (VStr "video.list").
Proof.
  apply (configureRedirectRequest_short_scopes _ _ ["video.list"]); [reflexivity | cbn; lia].
Defined.

(** The redirect depends on the configuration through the scopes and the
    client id only: the secret, the callback URL and the URL overrides
    never reach it. *)
Theorem configureRedirectRequest_secret_free (config config' : TikTokConfig)
    (request : RedirectRequest) :
  clientId config = clientId config' ->
  scopes config = scopes config' ->
  configureRedirectRequest config request = configureRedirectRequest config' request.
Proof.
  intros Hid Hscopes. unfold configureRedirectRequest. by rewrite Hid, Hscopes.
Qed.

Lemma configureRedirectRequest_secret_free_witness :
  configureRedirectRequest twoScopes freshRedirect =
  configureRedirectRequest
    (mkConfig "aw123" "another-secret" "https://other.test/cb" (Some "https://a.test/")
       (Some "https://t.test/") (Some "https://u.test/")
       (Some ["user.info.basic"; "video.list"]))
    freshRedirect.
Proof. apply configureRedirectRequest_secret_free; reflexivity. Defined.

(** ** The token-exchange request, beyond its five fields *)

(** An inbound request without a code still gets the code field: it is
    there, holding [undefined], and the other four fields are set as
    ever. *)
Theorem configureAccessTokenRequest_missing_code (config : TikTokConfig)
    (ctx : HttpContext) (builder : ApiRequest) :
  request ctx !! "code" = None ->
  fields (options (configureAccessTokenRequest config ctx builder)) !! "code" =
    Some VUndefined /\
  "code" ∈ dom (fields (options (configureAccessTokenRequest config ctx builder))) /\
  fields (options (configureAccessTokenRequest config ctx builder)) !! "client_secret" =
    Some (VStr (clientSecret config)).
Proof.
  intros Hnone. rewrite configureAccessTokenRequest_fields.
  unfold input. rewrite Hnone. cbn.
  split; [by simplify_map_eq |]. split; [| by simplify_map_eq].
  rewrite dom_insert_L. set_solver.
Qed.

Lemma configureAccessTokenRequest_missing_code_witness :
  fields (options (configureAccessTokenRequest plainConfig (mkCtx ∅)
                     (httpClient Defaults.accessTokenUrl))) !! "code" = Some VUndefined.
Proof.
  apply (configureAccessTokenRequest_missing_code plainConfig (mkCtx ∅)). reflexivity.
Defined.

(** The customisation leaves the URL, the query parameters, the response
    type and every header but Content-Type as they were. *)
Theorem configureAccessTokenRequest_keeps_others (config : TikTokConfig)
    (ctx : HttpContext) (request : ApiRequest) :
  baseUrl (configureAccessTokenRequest config ctx request) = baseUrl request /\
  params (options (configureAccessTokenRequest config ctx request)) =
    params (options request) /\
  responseType (options (configureAccessTokenRequest config ctx request)) =
    responseType (options request) /\
  dom (headers (options (configureAccessTokenRequest config ctx request))) =
    {["Content-Type"]} ∪ dom (headers (options request)) /\
  (forall k : string,
     k <> "Content-Type" ->
     headers (options (configureAccessTokenRequest config ctx request)) !! k =
     headers (options request) !! k).
Proof.
  rewrite configureAccessTokenRequest_headers.
  repeat split.
  - by rewrite dom_insert_L.
  - intros k Hk. by rewrite lookup_insert_ne.
Qed.

Lemma configureAccessTokenRequest_keeps_others_witness :
  headers (options (configureAccessTokenRequest plainConfig grantedCallback
                      (getAuthenticatedRequest Defaults.accessTokenUrl "tok")))
    !! "Authorization" = Some (VStr "Bearer tok").
Proof.
  destruct (configureAccessTokenRequest_keeps_others plainConfig grantedCallback
              (getAuthenticatedRequest Defaults.accessTokenUrl "tok"))
    as (_ & _ & _ & _ & Hframe).
  rewrite Hframe; [reflexivity | discriminate].
Defined.

Lemma ApiRequest_eq (r r' : ApiRequest) :
  baseUrl r = baseUrl r' ->
  headers (options r) = headers (options r') ->
  params (options r) = params (options r') ->
  fields (options r) = fields (options r') ->
  responseType (options r) = responseType (options r') ->
  r = r'.
Proof.
  destruct r as [u [h p f t]], r' as [u' [h' p' f' t']]. cbn.
  by intros -> -> -> -> ->.
Qed.

Lemma insert_absorbs (k : string) (v : value) (m m' : gmap string value) (j : string) :
  (j <> k -> m !! j = m' !! j) ->
  <[k := v]> m !! j = <[k := v]> m' !! j.
Proof.
  intros H. destruct (decide (j = k)) as [-> | Hne].
  - by rewrite !lookup_insert_eq.
  - rewrite !lookup_insert_ne by done. by apply H.
Qed.

(** Customising a request that was customised before, for whatever
    configuration and inbound request, gives what customising the original
    request gives: all five fields are overwritten, none is added twice. *)
Theorem configureAccessTokenRequest_absorbs (config config' : TikTokConfig)
    (ctx ctx' : HttpContext) (request : ApiRequest) :
  configureAccessTokenRequest config ctx (configureAccessTokenRequest config' ctx' request) =
    configureAccessTokenRequest config ctx request /\
  configureAccessTokenRequest config ctx (configureAccessTokenRequest config ctx request) =
    configureAccessTokenRequest config ctx request.
Proof.
  assert (H : forall c x c' x',
            configureAccessTokenRequest c x (configureAccessTokenRequest c' x' request) =
            configureAccessTokenRequest c x request).
  { intros c x c' x'. apply ApiRequest_eq; try reflexivity.
    - rewrite !configureAccessTokenRequest_headers. by rewrite insert_insert_eq.
    - rewrite !configureAccessTokenRequest_fields. apply map_eq. intros j.
      do 5 (apply insert_absorbs; intros ?).
      by rewrite !lookup_insert_ne by done. }
  split; apply H.
Qed.

(** The customisation reads the client id, the secret and the callback URL
    of the configuration and the code of the inbound request, and nothing
    else of either: scopes, URL overrides, state and error parameters do
    not reach the token request. *)
Theorem configureAccessTokenRequest_reads (config config' : TikTokConfig)
    (ctx ctx' : HttpContext) (request : ApiRequest) :
  clientId config = clientId config' ->
  clientSecret config = clientSecret config' ->
  callbackUrl config = callbackUrl config' ->
  input ctx "code" = input ctx' "code" ->
  configureAccessTokenRequest config ctx request =
  configureAccessTokenRequest config' ctx' request.
Proof.
  intros Hid Hsecret Hcb Hcode. unfold configureAccessTokenRequest, codeParamName.
  by rewrite Hid, Hsecret, Hcb, Hcode.
Qed.

Lemma configureAccessTokenRequest_reads_witness :
  configureAccessTokenRequest plainConfig grantedCallback presetRequest =
  configureAccessTokenRequest twoScopes
    (mkCtx (<["code" := VStr "c0de"]> (<["error" := VStr "none"]> ∅))) presetRequest.
Proof. apply configureAccessTokenRequest_reads; reflexivity. Defined.

(** ** The profile fetch, request by request *)

(** Without a callback, fetching the user from a token sends exactly one
    request, whether the transport then answers or fails: a GET to the
    user-info URL whose only header is the bearer authorisation of that
    token, whose only query parameter lists the six profile fields joined by
    commas, with no form field, to be parsed as JSON. *)
Theorem userFromToken_request (w : World) (config : TikTokConfig) (t : string)
    (tr : list event) :
  trace (userFromToken w config t None tr) =
    (tr ++ [EvGet (userInfoRequest config t)])%list /\
  trace (getUserInfo w config t None tr) =
    (tr ++ [EvGet (userInfoRequest config t)])%list /\
  headers (options (userInfoRequest config t)) =
    {[ "Authorization" := VStr ("Bearer " ++ t) ]} /\
  params (options (userInfoRequest config t)) =
    {[ "fields" :=
         VStr "open_id,union_id,avatar_url,avatar_url_100,avatar_large_url,display_name" ]} /\
  fields (options (userInfoRequest config t)) = ∅ /\
  responseType (options (userInfoRequest config t)) = Some AsJson.
Proof.
  rewrite userFromToken_run, getUserInfo_run. unfold trace. cbn [snd].
  repeat split.
Qed.

(** A callback that throws stops the fetch before anything is sent: the
    error is the callback's, and no request is added to the ones made
    before.  In [user] the code exchange has been made by then. *)
Theorem callback_failure (w : World) (config : TikTokConfig) (t : string)
    (f : Callback) (tr : list event) (e : exn) :
  f (options (userInfoRequest config t)) = Err e ->
  getUserInfo w config t (Some f) tr = (Err e, tr) /\
  userFromToken w config t (Some f) tr = (Err e, tr) /\
  (forall tk : TikTokAccessToken,
     exchange w config (Some f) = Ok tk -> token tk = t ->
     user w config (Some f) tr = (Err e, (tr ++ [EvAccessToken])%list)).
Proof.
  intros Hf.
  assert (Hres : fetchResult w config t (Some f) = Err e)
    by (unfold fetchResult, callbackResult; by rewrite Hf).
  assert (Hev : fetchEvents config t (Some f) = [])
    by (unfold fetchEvents, callbackResult; by rewrite Hf).
  split; [| split].
  - by rewrite getUserInfo_run, Hres, Hev, app_nil_r.
  - by rewrite userFromToken_run, Hres, Hev, app_nil_r.
  - intros tk Hex <-. by rewrite user_run, Hex, Hres, Hev, app_nil_r.
Qed.

Lemma callback_failure_witness :
  userFromToken (answering aliceResponse) plainConfig "tok" (Some refusing) [] =
    (Err (Raised "callback failed"), []).
Proof.
  apply (callback_failure (answering aliceResponse) plainConfig "tok" refusing []
           (Raised "callback failed")).
  reflexivity.
Defined.

(** What a callback leaves of the request is what is sent: the transport
    sees the callback's headers, parameters, fields and response type under
    the URL the driver chose, and a failure of the transport is the
    failure of the fetch. *)
Theorem callback_options_sent (w : World) (config : TikTokConfig) (t : string)
    (f : Callback) (tr : list event) (o : RequestOptions) :
  f (options (userInfoRequest config t)) = Ok o ->
  let sent := mkRequest (or_string (userInfoUrl config) Defaults.userInfoUrl) o in
  trace (getUserInfo w config t (Some f) tr) = (tr ++ [EvGet sent])%list /\
  trace (userFromToken w config t (Some f) tr) = (tr ++ [EvGet sent])%list /\
  (forall e : exn,
     http_get w sent = Err e ->
     outcome (getUserInfo w config t (Some f) tr) = Err e /\
     outcome (userFromToken w config t (Some f) tr) = Err e).
Proof.
  intros Hf sent.
  assert (Hcb : callbackResult (Some f) (userInfoRequest config t) = Ok sent)
    by (unfold callbackResult; by rewrite Hf).
  rewrite userFromToken_run, getUserInfo_run. unfold trace, outcome. cbn [fst snd].
  unfold fetchEvents, fetchResult. rewrite Hcb.
  repeat split; by rewrite H.
Qed.

Lemma callback_options_sent_witness :
  trace (getUserInfo (answering aliceResponse) plainConfig "tok" (Some stamping) []) =
    [EvGet
       (mkRequest "https://open.tiktokapis.com/v2/user/info/"
          (mkOptions
             (<["X-Request-Id" := VStr "r-17"]> {[ "Authorization" := VStr "Bearer tok" ]})
             {[ "fields" :=
                  VStr "open_id,union_id,avatar_url,avatar_url_100,avatar_large_url,display_name" ]}
             ∅ (Some AsJson)))].
Proof.
  apply (callback_options_sent (answering aliceResponse) plainConfig "tok" stamping []).
  reflexivity.
Defined.

(** When the code exchange fails, [user] fails with the exchange's error
    and never asks for the profile. *)
Theorem user_exchange_failure (w : World) (config : TikTokConfig)
    (callback : option Callback) (tr : list event) (e : exn) :
  exchange w config callback = Err e ->
  user w config callback tr = (Err e, (tr ++ [EvAccessToken])%list) /\
  fetchTargets (trace (user w config callback tr)) = fetchTargets tr.
Proof.
  intros Hex. rewrite user_run, Hex. split; [reflexivity |].
  unfold trace. cbn [snd]. rewrite fetchTargets_app. cbn. by rewrite app_nil_r.
Qed.

Lemma user_exchange_failure_witness :
  user rejecting plainConfig None [] =
    (Err (Raised "E_OAUTH_STATE_MISMATCH"), [EvAccessToken]).
Proof.
  apply (user_exchange_failure rejecting plainConfig None []
           (Raised "E_OAUTH_STATE_MISMATCH")).
  reflexivity.
Defined.

(** When the code exchange succeeds, [user] makes the exchange first and
    one profile request after it, authorised with the exchanged token. *)
Theorem user_request_order (w : World) (config : TikTokConfig) (tr : list event)
    (tk : TikTokAccessToken) :
  exchange w config None = Ok tk ->
  trace (user w config None tr) =
    (tr ++ [EvAccessToken; EvGet (userInfoRequest config (token tk))])%list /\
  headers (options (userInfoRequest config (token tk))) !! "Authorization" =
    Some (VStr ("Bearer " ++ token tk)).
Proof.
  intros Hex. rewrite user_run, Hex. unfold trace. cbn [snd].
  split; [by rewrite <- app_assoc |].
  unfold userInfoRequest, getAuthenticatedRequest. cbn. apply lookup_insert_eq.
Qed.

Lemma user_request_order_witness :
  trace (user (answering aliceResponse) plainConfig None []) =
    [EvAccessToken; EvGet (userInfoRequest plainConfig "tok")].
Proof.
  apply (user_request_order (answering aliceResponse) plainConfig [] (mkToken "tok" bearer)).
  reflexivity.
Defined.

(** ** The records the fetches return *)

(** After a successful exchange, [user] ends as [userFromToken] does on
    the exchanged token string: both fail with the same error, or both
    return records with the same profile and the same token string. *)
Theorem user_as_userFromToken (w : World) (config : TikTokConfig)
    (callback : option Callback) (tr : list event) (tk : TikTokAccessToken) :
  exchange w config callback = Ok tk ->
  match outcome (user w config callback tr),
        outcome (userFromToken w config (token tk) callback tr) with
  | Ok u, Ok u' =>
      AllyUser.id u = AllyUser.id u' /\
      AllyUser.nickName u = AllyUser.nickName u' /\
      AllyUser.name u = AllyUser.name u' /\
      AllyUser.avatarUrl u = AllyUser.avatarUrl u' /\
      AllyUser.email u = AllyUser.email u' /\
      AllyUser.emailVerificationState u = AllyUser.emailVerificationState u' /\
      AllyUser.original u = AllyUser.original u' /\
      token (AllyUser.token u) = token (AllyUser.token u') /\
      AllyUser.token u = tk
  | Err e, Err e' => e = e'
  | _, _ => False
  end.
Proof.
  intros Hex. rewrite user_run, userFromToken_run, Hex. unfold outcome. cbn [fst].
  destruct (fetchResult w config (token tk) callback); [| done].
  repeat split.
Qed.

Lemma user_as_userFromToken_witness :
  match outcome (user (answering deniedResponse) plainConfig None []),
        outcome (userFromToken (answering deniedResponse) plainConfig "tok" None []) with
  | Err e, Err e' => e = e'
  | _, _ => False
  end.
Proof.
  apply (user_as_userFromToken (answering deniedResponse) plainConfig None []
           (mkToken "tok" bearer)).
  reflexivity.
Defined.

Lemma profileOf_shape response p :
  profileOf response = Ok p ->
  email p = "" /\ emailVerificationState p = "unsupported" /\
  name p = nickName p /\ original p = response.
Proof.
  unfold profileOf. destruct (nestedUser response) as [usr|]; [| done].
  destruct (nullish usr); [done |].
  destruct (getProp usr "union_id"); [| done].
  destruct (getProp usr "display_name"); [| done].
  destruct (getProp usr "avatar_large_url"); [| done].
  by intros [= <-].
Qed.

Lemma fetchResult_shape w config t callback p :
  fetchResult w config t callback = Ok p ->
  email p = "" /\ emailVerificationState p = "unsupported" /\ name p = nickName p /\
  exists sent, callbackResult callback (userInfoRequest config t) = Ok sent /\
               http_get w sent = Ok (original p).
Proof.
  unfold fetchResult.
  destruct (callbackResult callback (userInfoRequest config t)) as [sent|]; [| done].
  destruct (http_get w sent) as [resp|] eqn:Hget; [| done].
  intros (He & Hs & Hn & Ho)%profileOf_shape. subst resp. eauto 6.
Qed.

(** Every record a fetch returns has the empty email, the verification
    state unsupported, the display name as both name and nickName, and as
    original the very response the transport gave to the request that was
    sent. *)
Theorem fetched_record_shape (w : World) (config : TikTokConfig) (t : string)
    (callback : option Callback) (tr : list event) :
  (forall u : AllyUser.t,
     outcome (userFromToken w config t callback tr) = Ok u ->
     AllyUser.email u = "" /\
     AllyUser.emailVerificationState u = "unsupported" /\
     AllyUser.name u = AllyUser.nickName u /\
     exists sent : ApiRequest,
       callbackResult callback (userInfoRequest config t) = Ok sent /\
       http_get w sent = Ok (AllyUser.original u)) /\
  (forall u : AllyUser.t,
     outcome (user w config callback tr) = Ok u ->
     AllyUser.email u = "" /\
     AllyUser.emailVerificationState u = "unsupported" /\
     AllyUser.name u = AllyUser.nickName u /\
     exists sent : ApiRequest,
       callbackResult callback (userInfoRequest config (token (AllyUser.token u))) = Ok sent /\
       http_get w sent = Ok (AllyUser.original u)).
Proof.
  split; intros u.
  - rewrite userFromToken_run. unfold outcome. cbn [fst].
    destruct (fetchResult w config t callback) as [p|] eqn:Hp; [| done].
    intros [= <-]. by apply fetchResult_shape in Hp.
  - rewrite user_run. destruct (exchange w config callback) as [tk|]; [| done].
    unfold outcome. cbn [fst].
    destruct (fetchResult w config (token tk) callback) as [p|] eqn:Hp; [| done].
    intros [= <-]. by apply fetchResult_shape in Hp.
Qed.

Lemma fetched_record_shape_witness :
  exists u : AllyUser.t,
    outcome (userFromToken (answering aliceResponse) plainConfig "tok" None []) = Ok u /\
    AllyUser.email u = "" /\
    AllyUser.name u = AllyUser.nickName u /\
    AllyUser.original u = aliceResponse.
Proof.
  destruct (fetched_record_shape (answering aliceResponse) plainConfig "tok" None [])
    as [Hshape _].
  eexists. split; [reflexivity |].
  edestruct Hshape as (He & _ & Hn & _); [reflexivity |].
  split; [exact He |]. split; [exact Hn | reflexivity].
Defined.

Lemma getProp_ownProp v k : nullish v = false -> getProp v k = Ok (ownProp v k).
Proof. by destruct v. Qed.

(** A user that is there but incomplete is no failure: whatever
    [response.data?.user] is, short of [undefined] and [null], the fetch
    returns a record, and each of id, name and avatarUrl whose key the user
    lacks, or all three when the user is no object at all, is
    [undefined]. *)
Theorem getUserInfo_partial_user (w : World) (config : TikTokConfig) (t : string)
    (callback : option Callback) (tr : list event) (sent : ApiRequest)
    (response usr : value) :
  callbackResult callback (userInfoRequest config t) = Ok sent ->
  http_get w sent = Ok response ->
  nestedUser response = Ok usr ->
  nullish usr = false ->
  outcome (getUserInfo w config t callback tr) =
    Ok {| id := ownProp usr "union_id";
          nickName := ownProp usr "display_name";
          name := ownProp usr "display_name";
          avatarUrl := ownProp usr "avatar_large_url";
          email := "";
          emailVerificationState := "unsupported";
          original := response |} /\
  (forall (o : gmap string value) (k : string),
     usr = VObj o -> o !! k = None -> ownProp usr k = VUndefined) /\
  ((forall o : gmap string value, usr <> VObj o) ->
   forall k : string, ownProp usr k = VUndefined).
Proof.
  intros Hcb Hget Huser Hn. split; [| split].
  - rewrite getUserInfo_run. unfold outcome, fetchResult, profileOf. cbn [fst].
    by rewrite Hcb, Hget, Huser, Hn, !getProp_ownProp.
  - intros o k -> Hk. cbn. by rewrite Hk.
  - intros Hno k. destruct usr; try done. by destruct (Hno o).
Qed.

Lemma getUserInfo_partial_user_witness :
  outcome (getUserInfo (answering namelessResponse) plainConfig "tok" None []) =
    Ok {| id := VUndefined;
          nickName := VStr "Bob";
          name := VStr "Bob";
          avatarUrl := VUndefined;
          email := "";
          emailVerificationState := "unsupported";
          original := namelessResponse |}.
Proof.
  refine (proj1 (getUserInfo_partial_user (answering namelessResponse) plainConfig "tok"
                   None [] (userInfoRequest plainConfig "tok") namelessResponse
                   (VObj (<["display_name" := VStr "Bob"]> ∅)) _ _ _ _));
    reflexivity.
Defined.

(** The profile fetch fails in three ways and no other: with what the
    callback threw, with what the transport threw, or, on a response
    without the nested user, with the TypeError of reading from [undefined]
    or [null].  It raises no error of its own making. *)
Theorem getUserInfo_failures (w : World) (config : TikTokConfig) (t : string)
    (callback : option Callback) (tr : list event) (e : exn) :
  outcome (getUserInfo w config t callback tr) = Err e ->
  callbackResult callback (userInfoRequest config t) = Err e \/
  (exists sent : ApiRequest,
     callbackResult callback (userInfoRequest config t) = Ok sent /\
     http_get w sent = Err e) \/
  (exists (sent : ApiRequest) (response target : value) (prop : string),
     callbackResult callback (userInfoRequest config t) = Ok sent /\
     http_get w sent = Ok response /\
     lacksUser response = true /\
     nullish target = true /\
     e = TypeError target prop).
Proof.
  rewrite getUserInfo_run. unfold outcome, fetchResult. cbn [fst].
  destruct (callbackResult callback (userInfoRequest config t)) as [sent|e0];
    [| intros [= ->]; by left].
  destruct (http_get w sent) as [response|e0] eqn:Hget;
    [| intros [= ->]; right; left; eauto].
  intros Hprofile. right. right.
  destruct (lacksUser response) eqn:Hlacks.
  - destruct (profileOf_lacksUser response Hlacks) as (target & prop & Hn & Hp).
    rewrite Hp in Hprofile. injection Hprofile as <-.
    by exists sent, response, target, prop.
  - exfalso. unfold lacksUser in Hlacks. unfold profileOf in Hprofile.
    destruct (nestedUser response) as [usr|]; [| done].
    by rewrite Hlacks, !getProp_ownProp in Hprofile.
Qed.

Lemma getUserInfo_failures_witness :
  callbackResult None (userInfoRequest plainConfig "tok") = Err (Raised "ECONNREFUSED") \/
  (exists sent : ApiRequest,
     callbackResult None (userInfoRequest plainConfig "tok") = Ok sent /\
     http_get offline sent = Err (Raised "ECONNREFUSED")) \/
  (exists (sent : ApiRequest) (response target : value) (prop : string),
     callbackResult None (userInfoRequest plainConfig "tok") = Ok sent /\
     http_get offline sent = Ok response /\
     lacksUser response = true /\
     nullish target = true /\
     Raised "ECONNREFUSED" = TypeError target prop).
Proof.
  apply (getUserInfo_failures offline plainConfig "tok" None [] (Raised "ECONNREFUSED")).
  reflexivity.
Defined.

(** The profile fetch depends on the configuration through the user-info
    URL it resolves to and through nothing else: client id, secret,
    callback URL and scopes never reach the user-info request. *)
Theorem getUserInfo_reads (w : World) (config config' : TikTokConfig) (t : string)
    (callback : option Callback) (tr : list event) :
  or_string (userInfoUrl config) Defaults.userInfoUrl =
    or_string (userInfoUrl config') Defaults.userInfoUrl ->
  getUserInfo w config t callback tr = getUserInfo w config' t callback tr /\
  userFromToken w config t callback tr = userFromToken w config' t callback tr.
Proof.
  intros Hurl.
  assert (Hreq : userInfoRequest config t = userInfoRequest config' t)
    by (unfold userInfoRequest; by rewrite Hurl).
  rewrite !userFromToken_run, !getUserInfo_run.
  unfold fetchResult, fetchEvents. by rewrite !Hreq.
Qed.

Lemma getUserInfo_reads_witness :
  userFromToken (answering aliceResponse) plainConfig "tok" None [] =
  userFromToken (answering aliceResponse) twoScopes "tok" None [].
Proof.
  apply (getUserInfo_reads (answering aliceResponse) plainConfig twoScopes "tok" None []).
  reflexivity.
Defined.
